(** * ClientPullCertificateManagement

    A shallow embedding of
    [packages/node-opcua-server-configuration/source/clientTools/pull_certificate_management_client.ts]
    and the properties of its five public methods.

    The TypeScript class drives four remote methods of the OPC UA
    ServerConfiguration object through [session.call], and interprets the
    [CallMethodResult] that comes back.  Every method awaits the session
    exactly once, so an asynchronous method is embedded as a small tree
    ([Async]) whose only effect is that call; a session is anything that
    implements [IBasicSession], and [run] plays a method against one. *)

From Stdlib Require Import List String Ascii NArith Bool.
From Stdlib Require Import Strings.Byte.
Import ListNotations.
Local Open Scope string_scope.
Set Warnings "-register-all".

(** ** JavaScript values and completions *)

(** [resolveNodeId("i=N")] denotes the numeric node id [N] of namespace 0. *)
Record NodeId : Type := makeNodeId { nodeValue : N; nodeNamespace : N }.

Definition resolveNodeId_i (n : N) : NodeId := makeNodeId n 0%N.

(** A [Buffer] is a sequence of octets. *)
Definition Buffer : Type := list byte.

(** What a property of type [any] can hold at run time. *)
Inductive JsValue : Type :=
| JsUndefined
| JsNull
| JsBoolean (b : bool)
| JsNumber (n : N)
| JsString (s : string)
| JsBuffer (b : Buffer)
| JsNodeId (n : NodeId)
| JsArray (items : list JsValue).

(** What a [throw] (or a rejected promise) carries.  [TypeError] is what the
    engine raises when a property is read off [undefined] or [null]. *)
Inductive JsError : Type :=
| TypeError
| Error (message : string).

Inductive Completion (A : Type) : Type :=
| Normal (a : A)
| Throw (e : JsError).
Arguments Normal {A} a.
Arguments Throw {A} e.

Definition Completion_bind {A B} (c : Completion A) (f : A -> Completion B)
  : Completion B :=
  match c with
  | Normal a => f a
  | Throw e => Throw e
  end.

Notation "x <- c ;; k" := (Completion_bind c (fun x => k))
  (at level 61, c at next level, right associativity).

(** ** The OPC UA types the client imports *)

Module DataType.
Inductive t : Type :=
| Null | Boolean | SByte | Byte | Int16 | UInt16 | Int32 | UInt32
| Int64 | UInt64 | Float | Double | String | DateTime | Guid
| ByteString | XmlElement | NodeId | ExpandedNodeId | StatusCode
| QualifiedName | LocalizedText | ExtensionObject | DataValue
| Variant | DiagnosticInfo.

(** The enumeration's numeric value; [===] on a [DataType] compares it. *)
Definition code (d : t) : N :=
  match d with
  | Null => 0 | Boolean => 1 | SByte => 2 | Byte => 3 | Int16 => 4
  | UInt16 => 5 | Int32 => 6 | UInt32 => 7 | Int64 => 8 | UInt64 => 9
  | Float => 10 | Double => 11 | String => 12 | DateTime => 13
  | Guid => 14 | ByteString => 15 | XmlElement => 16 | NodeId => 17
  | ExpandedNodeId => 18 | StatusCode => 19 | QualifiedName => 20
  | LocalizedText => 21 | ExtensionObject => 22 | DataValue => 23
  | Variant => 24 | DiagnosticInfo => 25
  end%N.

Definition eqb (a b : t) : bool := N.eqb (code a) (code b).
End DataType.

Module VariantArrayType.
Inductive t : Type := Scalar | Array | Matrix.
End VariantArrayType.

(** An object literal passed where a [VariantLike] is expected.  [arrayType]
    and [value] are optional properties: [None] is a property the literal
    does not have, [Some JsUndefined] one it has with no content. *)
Record VariantLike : Type := mkVariantLike {
  vl_dataType : DataType.t;
  vl_arrayType : option VariantArrayType.t;
  vl_value : option JsValue
}.

(** A [Variant] as the session hands it back in [outputArguments]. *)
Record Variant : Type := mkVariant {
  dataType : DataType.t;
  arrayType : VariantArrayType.t;
  value : JsValue
}.

(** A [StatusCode] is an object that holds a 32-bit code.  The members of
    [StatusCodes] are shared constants, one object for each code, and the
    client tests a status with [===], which is identity of objects: a status
    object of its own (a copy, a [ModifiableStatusCode]) is not
    [StatusCodes.Good], even when its code is 0.  [statusObject] tells the
    objects apart: [None] is the member of [StatusCodes] for the code,
    [Some id] is an object of its own, named by [id]. *)
Record StatusCode : Type := mkStatusCode {
  statusValue : N;
  statusObject : option N
}.

Module StatusCodes.
Definition Good : StatusCode := mkStatusCode 0%N None.
Definition BadInternalError : StatusCode := mkStatusCode 0x80020000%N None.
Definition BadSecurityChecksFailed : StatusCode :=
  mkStatusCode 0x80130000%N None.
Definition BadUserAccessDenied : StatusCode := mkStatusCode 0x801F0000%N None.
Definition BadInvalidArgument : StatusCode := mkStatusCode 0x80AB0000%N None.
End StatusCodes.

Definition same_object (a b : option N) : bool :=
  match a, b with
  | None, None => true
  | Some x, Some y => N.eqb x y
  | _, _ => false
  end.

(** [a === b]: the same object, hence also the same code. *)
Definition StatusCode_eqb (a b : StatusCode) : bool :=
  N.eqb (statusValue a) (statusValue b) &&
  same_object (statusObject a) (statusObject b).

Record CallMethodRequestLike : Type := mkCallMethodRequest {
  inputArguments : list VariantLike;
  methodId : NodeId;
  objectId : NodeId
}.

(** [outputArguments] may be missing ([undefined] or [null]): the client only
    ever tests it for truthiness or indexes it, and both treat the two alike. *)
Record CallMethodResult : Type := mkCallMethodResult {
  statusCode : StatusCode;
  outputArguments : option (list Variant)
}.

(** ** Asynchronous methods and sessions *)

(** An [async] method of the client: either settled (resolved with a value or
    rejected with an error), or suspended on [await this.session.call(req)]
    with the rest of the body waiting for the call to settle. *)
Inductive Async (A : Type) : Type :=
| Settled (c : Completion A)
| Await (req : CallMethodRequestLike)
        (k : Completion CallMethodResult -> Async A).
Arguments Settled {A} c.
Arguments Await {A} req k.

(** [await session.call(req)] followed by [body]: a rejected call rejects the
    method with the same error, the body is not entered. *)
Definition await_call {A} (req : CallMethodRequestLike)
    (body : CallMethodResult -> Completion A) : Async A :=
  Await req (fun settled => Settled (Completion_bind settled body)).

(** The one capability the client consumes.  A call may change the session
    (and the server behind it), so it returns the session afterwards. *)
Class IBasicSession (S : Type) : Type :=
  call : S -> CallMethodRequestLike -> Completion CallMethodResult * S.

Fixpoint run {S} `{IBasicSession S} {A} (m : Async A) (s : S)
  : Completion A * S :=
  match m with
  | Settled c => (c, s)
  | Await req k => let (settled, s') := call s req in run (k settled) s'
  end.

(** The requests a method sends, in order, when the session answers each with
    [answer]. *)
Fixpoint requests {A} (answer : CallMethodRequestLike -> Completion CallMethodResult)
    (m : Async A) : list CallMethodRequestLike :=
  match m with
  | Settled _ => []
  | Await req k => req :: requests answer (k (answer req))
  end.

(** ** Reading properties *)

(** [outputArguments![i]]: indexing a missing array throws, indexing past the
    end of an array yields [undefined]. *)
Definition index (args : option (list Variant)) (i : nat)
  : Completion (option Variant) :=
  match args with
  | None => Throw TypeError
  | Some l => Normal (nth_error l i)
  end.

(** [v.value] and [v.dataType], where [v] may be [undefined]. *)
Definition get_value (v : option Variant) : Completion JsValue :=
  match v with
  | None => Throw TypeError
  | Some x => Normal (value x)
  end.

Definition get_dataType (v : option Variant) : Completion DataType.t :=
  match v with
  | None => Throw TypeError
  | Some x => Normal (dataType x)
  end.

(** Truthiness of the optional parameters, by their declared types:
    [undefined] is falsy, so is [false] and the empty string; a [Buffer] is an
    object and always truthy. *)
Definition truthy_boolean (b : option bool) : bool :=
  match b with Some true => true | _ => false end.

Definition truthy_string (s : option string) : bool :=
  match s with
  | Some s' => negb (String.eqb s' "")
  | None => false
  end.

Definition truthy_object {A} (o : option A) : bool :=
  match o with Some _ => true | None => false end.

(** The run-time value of an optional parameter. *)
Definition js_optional {A} (inj : A -> JsValue) (o : option A) : JsValue :=
  match o with Some a => inj a | None => JsUndefined end.

(** ** The client *)

Definition serverConfigurationNodeId : NodeId := resolveNodeId_i 12637.
Definition createSigningRequestMethod : NodeId := resolveNodeId_i 12737.
Definition getRejectedListMethod : NodeId := resolveNodeId_i 12777.
Definition updateCertificateMethod : NodeId := resolveNodeId_i 13737.

Definition certificateGroups : NodeId := resolveNodeId_i 14053.
Definition defaultApplicationGroup : NodeId := resolveNodeId_i 14156.
Definition applyChangesMethod : NodeId := resolveNodeId_i 12740.

(** The result interfaces.  An optional property is [None] when the object
    literal that was returned does not mention it. *)
Record CreateSigningRequestResult : Type := mkCreateSigningRequestResult {
  csr_statusCode : StatusCode;
  certificateSigningRequest : option JsValue
}.

Record GetRejectedListResult : Type := mkGetRejectedListResult {
  grl_statusCode : StatusCode;
  certificates : option JsValue
}.

Record UpdateCertificateResult : Type := mkUpdateCertificateResult {
  uc_statusCode : StatusCode;
  applyChangeRequired : option JsValue
}.

Record ClientPullCertificateManagement (S : Type) : Type :=
  mkClient { session : S }.
Arguments mkClient {S} session.
Arguments session {S} c.

Definition rsaSha256ApplicationCertificateType : NodeId := resolveNodeId_i 12560.

(** [this.method(...)]: the method runs against [this.session]. *)
Definition invoke {S} `{IBasicSession S} {A}
    (this : ClientPullCertificateManagement S) (method : Async A)
  : Completion A * ClientPullCertificateManagement S :=
  let (settled, s') := run method (session this) in (settled, mkClient s').

(** *** createSigningRequest *)

Definition createSigningRequest_inputArguments
    (certificateGroupId certificateTypeId : NodeId) (subjectName : string)
    (regeneratePrivateKey : option bool) (nonce : option Buffer)
  : list VariantLike :=
  [ mkVariantLike DataType.NodeId None (Some (JsNodeId certificateGroupId));
    mkVariantLike DataType.NodeId None (Some (JsNodeId certificateTypeId));
    mkVariantLike DataType.String None (Some (JsString subjectName));
    mkVariantLike DataType.Boolean None
      (Some (JsBoolean (negb (negb (truthy_boolean regeneratePrivateKey)))));
    mkVariantLike
      (if truthy_object nonce then DataType.ByteString else DataType.Null)
      None (Some (js_optional JsBuffer nonce)) ].

Definition createSigningRequest_methodToCall
    (certificateGroupId certificateTypeId : NodeId) (subjectName : string)
    (regeneratePrivateKey : option bool) (nonce : option Buffer)
  : CallMethodRequestLike :=
  {| inputArguments :=
       createSigningRequest_inputArguments certificateGroupId certificateTypeId
         subjectName regeneratePrivateKey nonce;
     methodId := createSigningRequestMethod;
     objectId := serverConfigurationNodeId |}.

Definition createSigningRequest
    (certificateGroupId certificateTypeId : NodeId) (subjectName : string)
    (regeneratePrivateKey : option bool) (nonce : option Buffer)
  : Async CreateSigningRequestResult :=
  let methodToCall :=
    createSigningRequest_methodToCall certificateGroupId certificateTypeId
      subjectName regeneratePrivateKey nonce in
  await_call methodToCall (fun callMethodResult =>
    if StatusCode_eqb (statusCode callMethodResult) StatusCodes.Good then
      first <- index (outputArguments callMethodResult) 0 ;;
      request <- get_value first ;;
      Normal {| certificateSigningRequest := Some request;
                csr_statusCode := statusCode callMethodResult |}
    else
      Normal {| csr_statusCode := statusCode callMethodResult;
                certificateSigningRequest := None |}).

(** *** getRejectedList *)

Definition getRejectedList_methodToCall : CallMethodRequestLike :=
  {| inputArguments := [];
     methodId := getRejectedListMethod;
     objectId := serverConfigurationNodeId |}.

Definition getRejectedList : Async GetRejectedListResult :=
  await_call getRejectedList_methodToCall (fun callMethodResult =>
    if StatusCode_eqb (statusCode callMethodResult) StatusCodes.Good then
      first <- index (outputArguments callMethodResult) 0 ;;
      firstType <- get_dataType first ;;
      if negb (DataType.eqb firstType DataType.ByteString) then
        Normal {| grl_statusCode := StatusCodes.BadInvalidArgument;
                  certificates := None |}
      else
        first' <- index (outputArguments callMethodResult) 0 ;;
        rejected <- get_value first' ;;
        Normal {| certificates := Some rejected;
                  grl_statusCode := statusCode callMethodResult |}
    else
      Normal {| grl_statusCode := statusCode callMethodResult;
                certificates := None |}).

(** *** updateCertificate *)

Definition updateCertificate_inputArguments
    (certificateGroupId certificateTypeId : NodeId) (certificate : Buffer)
    (issuerCertificates : list Buffer)
    (privateKeyFormat : option string) (privateKey : option Buffer)
  : list VariantLike :=
  [ mkVariantLike DataType.NodeId None (Some (JsNodeId certificateGroupId));
    mkVariantLike DataType.NodeId None (Some (JsNodeId certificateTypeId));
    mkVariantLike DataType.ByteString None (Some (JsBuffer certificate));
    mkVariantLike DataType.ByteString (Some VariantArrayType.Array)
      (Some (JsArray (map JsBuffer issuerCertificates)));
    if truthy_string privateKeyFormat
    then mkVariantLike DataType.String None
           (Some (js_optional JsString privateKeyFormat))
    else mkVariantLike DataType.Null None None;
    if truthy_string privateKeyFormat
    then mkVariantLike DataType.ByteString None
           (Some (js_optional JsBuffer privateKey))
    else mkVariantLike DataType.Null None None ].

Definition updateCertificate_methodToCall
    (certificateGroupId certificateTypeId : NodeId) (certificate : Buffer)
    (issuerCertificates : list Buffer)
    (privateKeyFormat : option string) (privateKey : option Buffer)
  : CallMethodRequestLike :=
  {| inputArguments :=
       updateCertificate_inputArguments certificateGroupId certificateTypeId
         certificate issuerCertificates privateKeyFormat privateKey;
     methodId := updateCertificateMethod;
     objectId := serverConfigurationNodeId |}.

(** [!outputArguments || outputArguments.length !== 1] *)
Definition not_exactly_one (args : option (list Variant)) : bool :=
  match args with
  | None => true
  | Some l => negb (Nat.eqb (List.length l) 1)
  end.

Definition updateCertificate
    (certificateGroupId certificateTypeId : NodeId) (certificate : Buffer)
    (issuerCertificates : list Buffer)
    (privateKeyFormat : option string) (privateKey : option Buffer)
  : Async UpdateCertificateResult :=
  let methodToCall :=
    updateCertificate_methodToCall certificateGroupId certificateTypeId
      certificate issuerCertificates privateKeyFormat privateKey in
  await_call methodToCall (fun callMethodResult =>
    if StatusCode_eqb (statusCode callMethodResult) StatusCodes.Good then
      if not_exactly_one (outputArguments callMethodResult) then
        Normal {| uc_statusCode := StatusCodes.BadInternalError;
                  applyChangeRequired := None |}
      else
        first <- index (outputArguments callMethodResult) 0 ;;
        required <- get_value first ;;
        Normal {| applyChangeRequired := Some required;
                  uc_statusCode := statusCode callMethodResult |}
    else
      Normal {| uc_statusCode := statusCode callMethodResult;
                applyChangeRequired := None |}).

(** *** applyChanges *)

Definition applyChanges_methodToCall : CallMethodRequestLike :=
  {| inputArguments := [];
     methodId := applyChangesMethod;
     objectId := serverConfigurationNodeId |}.

(** [outputArguments && outputArguments.length] as a condition. *)
Definition has_elements (args : option (list Variant)) : bool :=
  match args with
  | None => false
  | Some l => negb (Nat.eqb (List.length l) 0)
  end.

Definition applyChanges : Async StatusCode :=
  await_call applyChanges_methodToCall (fun callMethodResult =>
    if has_elements (outputArguments callMethodResult) then
      Throw (Error "Invalid  output arguments")
    else
      Normal (statusCode callMethodResult)).

(** *** getCertificateGroupId *)

Definition getCertificateGroupId (certificateGroupName : string)
  : Async NodeId :=
  if String.eqb certificateGroupName "DefaultApplicationGroup" then
    Settled (Normal defaultApplicationGroup)
  else
    Settled (Throw (Error "Not Implemented yet")).

(** ** The vocabulary of the specification *)

(** The specification speaks of the kind of a typed value.  In the code a
    kind is a [DataType] together with a [VariantArrayType]: a scalar
    [ByteString] is Raw-Bytes, an array of [ByteString] is
    Raw-Bytes-Sequence, and [Null] is Absent. *)
Module Kind.
Inductive t : Type :=
| Identifier | Text | Boolean | RawBytes | RawBytesSequence | Absent
| Unlisted.
End Kind.

Definition kind_of (d : DataType.t) (a : VariantArrayType.t) : Kind.t :=
  match d, a with
  | DataType.Null, _ => Kind.Absent
  | DataType.NodeId, VariantArrayType.Scalar => Kind.Identifier
  | DataType.String, VariantArrayType.Scalar => Kind.Text
  | DataType.Boolean, VariantArrayType.Scalar => Kind.Boolean
  | DataType.ByteString, VariantArrayType.Scalar => Kind.RawBytes
  | DataType.ByteString, VariantArrayType.Array => Kind.RawBytesSequence
  | _, _ => Kind.Unlisted
  end.

Definition kind (v : Variant) : Kind.t := kind_of (dataType v) (arrayType v).

(** A literal that names no [arrayType] is a scalar. *)
Definition argument_kind (a : VariantLike) : Kind.t :=
  kind_of (vl_dataType a)
    (match vl_arrayType a with
     | Some t => t
     | None => VariantArrayType.Scalar
     end).

(** The content an argument carries, if any: a missing [value] property and
    one set to [undefined] both carry none. *)
Definition argument_content (a : VariantLike) : option JsValue :=
  match vl_value a with
  | Some JsUndefined | None => None
  | Some v => Some v
  end.

Definition output_count (args : option (list Variant)) : option nat :=
  option_map (@List.length Variant) args.

(** ** A scripted session *)

(** A session that answers from a script and records what it was asked. *)
Record Scripted : Type := mkScripted {
  script : list (Completion CallMethodResult);
  received : list CallMethodRequestLike
}.

#[export] Instance Scripted_session : IBasicSession Scripted :=
  fun s req =>
    match script s with
    | [] => (Throw (Error "connection lost"),
             mkScripted [] (received s ++ [req]))
    | answer :: rest => (answer, mkScripted rest (received s ++ [req]))
    end.

Definition answering (outcome : CallMethodResult) : Scripted :=
  mkScripted [Normal outcome] [].

Definition after (req : CallMethodRequestLike) : Scripted :=
  mkScripted [] [req].

(** Sample data. *)
Definition sample_type : NodeId := rsaSha256ApplicationCertificateType.
Definition sample_subject : string := "CN=Device/O=Company".
Definition sample_der : Buffer := [x30; x82; x01; x0a].
Definition sample_key : Buffer := [x2d; x2d; x2d].

Definition good (outputs : option (list Variant)) : CallMethodResult :=
  {| statusCode := StatusCodes.Good; outputArguments := outputs |}.

Definition denied (outputs : option (list Variant)) : CallMethodResult :=
  {| statusCode := StatusCodes.BadUserAccessDenied;
     outputArguments := outputs |}.

Definition scalar_bytes (b : Buffer) : Variant :=
  mkVariant DataType.ByteString VariantArrayType.Scalar (JsBuffer b).

Definition bytes_array (l : list Buffer) : Variant :=
  mkVariant DataType.ByteString VariantArrayType.Array
    (JsArray (map JsBuffer l)).

Definition boolean (b : bool) : Variant :=
  mkVariant DataType.Boolean VariantArrayType.Scalar (JsBoolean b).

(** ** Basic facts *)

Lemma StatusCode_eqb_eq (a b : StatusCode) :
  StatusCode_eqb a b = true <-> a = b.
Proof.
  destruct a as [x [i | ]], b as [y [j | ]]; unfold StatusCode_eqb; simpl;
    rewrite andb_true_iff, N.eqb_eq; split.
  - intros [-> Hsame]. apply N.eqb_eq in Hsame. subst. reflexivity.
  - intros [= -> ->]. split; [reflexivity | apply N.eqb_refl].
  - intros [_ Hsame]. discriminate.
  - intros [= _].
  - intros [_ Hsame]. discriminate.
  - intros [= _].
  - intros [-> _]. reflexivity.
  - intros [= ->]. split; reflexivity.
Qed.

Lemma StatusCode_eqb_neq (a b : StatusCode) :
  StatusCode_eqb a b = false <-> a <> b.
Proof.
  rewrite <- StatusCode_eqb_eq. destruct (StatusCode_eqb a b); split;
    intros; try discriminate; try reflexivity; congruence.
Qed.

Lemma DataType_eqb_eq (a b : DataType.t) :
  DataType.eqb a b = true <-> a = b.
Proof.
  destruct a, b; cbv; split; intro; try reflexivity; discriminate.
Qed.

Lemma DataType_eqb_neq (a b : DataType.t) :
  DataType.eqb a b = false <-> a <> b.
Proof.
  rewrite <- DataType_eqb_eq. destruct (DataType.eqb a b); split;
    intros; try discriminate; try reflexivity; congruence.
Qed.

Lemma kind_sequence_is_ByteString (v : Variant) :
  kind v = Kind.RawBytesSequence -> dataType v = DataType.ByteString.
Proof.
  destruct v as [d a x]; unfold kind; simpl.
  destruct d, a; simpl; intros; try discriminate; reflexivity.
Qed.

Section AnySession.
Context {S : Type} `{IBasicSession S}.

(** A method that awaits one call settles with what its body makes of the
    call's completion, and leaves the session as the call left it. *)
Lemma run_await_call {A} (req : CallMethodRequestLike)
    (body : CallMethodResult -> Completion A)
    (s s' : S) (settled : Completion CallMethodResult) :
  call s req = (settled, s') ->
  run (await_call req body) s = (Completion_bind settled body, s').
Proof.
  intros Hcall. unfold await_call. simpl. rewrite Hcall. reflexivity.
Qed.

(** A call that fails on the way rejects the method with the same error. *)
Lemma run_await_call_rejected {A} (req : CallMethodRequestLike)
    (body : CallMethodResult -> Completion A) (s s' : S) (e : JsError) :
  call s req = (Throw e, s') ->
  run (await_call req body) s = (Throw e, s').
Proof.
  intros Hcall. rewrite (run_await_call _ _ _ _ _ Hcall). reflexivity.
Qed.

(** Calling a method on a client is running it against the client's
    session; the client afterwards holds the session the run left. *)
Lemma invoke_run {A} (this : ClientPullCertificateManagement S)
    (method : Async A) (settled : Completion A) (s' : S) :
  run method (session this) = (settled, s') ->
  invoke this method = (settled, mkClient s').
Proof.
  intros Hrun. unfold invoke. rewrite Hrun. reflexivity.
Qed.
End AnySession.

Lemma requests_await_call {A} answer (req : CallMethodRequestLike)
    (body : CallMethodResult -> Completion A) :
  requests answer (await_call req body) = [req].
Proof. reflexivity. Qed.

(** ** Interpreting the outcome *)

(** Replace the run of a method by its body applied to the settled call. *)
Ltac settle Hcall :=
  rewrite (run_await_call _ _ _ _ _ Hcall); cbn [Completion_bind].

Ltac is_good Hgood :=
  rewrite Hgood;
  change (StatusCode_eqb StatusCodes.Good StatusCodes.Good) with true;
  cbv iota.

Ltac is_not_good Hbad :=
  rewrite (proj2 (StatusCode_eqb_neq _ _) Hbad).

(** C1.  The guard of getRejectedList misses a case.  The method declares
    [certificates?: Buffer[]] and refuses a first output whose data type is
    not [ByteString], but it never looks at the array type: a successful
    reply whose single output is one scalar [ByteString] (kind Raw-Bytes,
    not Raw-Bytes-Sequence) is not turned into [BadInvalidArgument], and the
    lone buffer comes back as [certificates] under status [Good]. *)
Lemma getRejectedList_scalar_bytes_accepted :
  kind (scalar_bytes sample_der) <> Kind.RawBytesSequence /\
  run getRejectedList (answering (good (Some [scalar_bytes sample_der]))) =
    (Normal {| grl_statusCode := StatusCodes.Good;
               certificates := Some (JsBuffer sample_der) |},
     after getRejectedList_methodToCall) /\
  fst (run getRejectedList
         (answering (good (Some [scalar_bytes sample_der])))) <>
    Normal {| grl_statusCode := StatusCodes.BadInvalidArgument;
              certificates := None |}.
Proof.
  split; [discriminate | split; [reflexivity | discriminate]].
Qed.

Section Outcomes.
Context {S : Type} `{IBasicSession S}.

(** X12.  What the guard of getRejectedList looks at.  When the session
    answers with status [Good] and a first output [v], the result depends on
    the data type of [v] alone: if it is not [ByteString] the result is
    [BadInvalidArgument] with [certificates] absent; if it is [ByteString]
    the result is [Good] with [certificates] the value of [v].  Neither the
    array type of [v] nor any further output is looked at.  In particular an
    output of kind Raw-Bytes-Sequence comes back as the certificates. *)
Theorem getRejectedList_checks_dataType
    (s s' : S) (outcome : CallMethodResult)
    (v : Variant) (others : list Variant) :
  call s getRejectedList_methodToCall = (Normal outcome, s') ->
  statusCode outcome = StatusCodes.Good ->
  outputArguments outcome = Some (v :: others) ->
  (dataType v <> DataType.ByteString ->
   run getRejectedList s =
     (Normal {| grl_statusCode := StatusCodes.BadInvalidArgument;
                certificates := None |}, s')) /\
  (dataType v = DataType.ByteString ->
   run getRejectedList s =
     (Normal {| grl_statusCode := StatusCodes.Good;
                certificates := Some (value v) |}, s')) /\
  (kind v = Kind.RawBytesSequence ->
   run getRejectedList s =
     (Normal {| grl_statusCode := StatusCodes.Good;
                certificates := Some (value v) |}, s')).
Proof.
  intros Hcall Hgood Hout.
  assert (Hbytes : dataType v = DataType.ByteString ->
            run getRejectedList s =
              (Normal {| grl_statusCode := StatusCodes.Good;
                         certificates := Some (value v) |}, s')).
  { intros Htype. unfold getRejectedList. settle Hcall. is_good Hgood.
    rewrite Hout. simpl. rewrite Htype. reflexivity. }
  repeat split.
  - intros Htype. unfold getRejectedList. settle Hcall. is_good Hgood.
    rewrite Hout. simpl.
    rewrite (proj2 (DataType_eqb_neq _ _) Htype). reflexivity.
  - exact Hbytes.
  - intros Hkind. apply Hbytes, kind_sequence_is_ByteString, Hkind.
Qed.

(** C2.  When the session answers applyChanges with a non-empty sequence of
    outputs, whatever the status, the method throws
    [Error("Invalid  output arguments")] and returns no status; with an
    empty (or missing) sequence it returns the status of the outcome. *)
Theorem applyChanges_rejects_outputs
    (s s' : S) (outcome : CallMethodResult) :
  call s applyChanges_methodToCall = (Normal outcome, s') ->
  (forall v others,
      outputArguments outcome = Some (v :: others) ->
      run applyChanges s = (Throw (Error "Invalid  output arguments"), s')) /\
  (outputArguments outcome = Some [] \/ outputArguments outcome = None ->
   run applyChanges s = (Normal (statusCode outcome), s')).
Proof.
  intros Hcall. split.
  - intros v others Hout. unfold applyChanges. settle Hcall.
    rewrite Hout. reflexivity.
  - intros [Hout | Hout]; unfold applyChanges; settle Hcall;
      rewrite Hout; reflexivity.
Qed.

(** C3.  When the session answers updateCertificate with status [Good]: if
    the outputs are missing or their number is not one, the result is
    [BadInternalError] with [applyChangeRequired] absent; if there is
    exactly one output, the result is [Good] with [applyChangeRequired]
    its value. *)
Theorem updateCertificate_checks_arity
    (s s' : S) (outcome : CallMethodResult)
    (certificateGroupId certificateTypeId : NodeId) (certificate : Buffer)
    (issuerCertificates : list Buffer)
    (privateKeyFormat : option string) (privateKey : option Buffer) :
  call s (updateCertificate_methodToCall certificateGroupId
            certificateTypeId certificate issuerCertificates
            privateKeyFormat privateKey) = (Normal outcome, s') ->
  statusCode outcome = StatusCodes.Good ->
  (output_count (outputArguments outcome) <> Some 1 ->
   run (updateCertificate certificateGroupId certificateTypeId certificate
          issuerCertificates privateKeyFormat privateKey) s =
     (Normal {| uc_statusCode := StatusCodes.BadInternalError;
                applyChangeRequired := None |}, s')) /\
  (forall v,
      outputArguments outcome = Some [v] ->
      run (updateCertificate certificateGroupId certificateTypeId
             certificate issuerCertificates privateKeyFormat privateKey) s =
        (Normal {| uc_statusCode := StatusCodes.Good;
                   applyChangeRequired := Some (value v) |}, s')).
Proof.
  intros Hcall Hgood. split.
  - intros Hcount. unfold updateCertificate. settle Hcall. is_good Hgood.
    destruct (outputArguments outcome) as [[ | v [ | w l]] | ];
      simpl in *; try reflexivity.
    exfalso. apply Hcount. reflexivity.
  - intros v Hout. unfold updateCertificate. settle Hcall. is_good Hgood.
    rewrite Hout. reflexivity.
Qed.

(** C4.  When the status of the outcome is not [Good],
    createSigningRequest, getRejectedList and updateCertificate each
    resolve (nothing is thrown) with a record that holds that status and
    nothing else, whatever outputs the outcome carries. *)
Theorem failure_status_is_propagated
    (s s' : S) (outcome : CallMethodResult) :
  statusCode outcome <> StatusCodes.Good ->
  (forall certificateGroupId certificateTypeId subjectName
          regeneratePrivateKey nonce,
      call s (createSigningRequest_methodToCall certificateGroupId
                certificateTypeId subjectName regeneratePrivateKey nonce) =
        (Normal outcome, s') ->
      run (createSigningRequest certificateGroupId certificateTypeId
             subjectName regeneratePrivateKey nonce) s =
        (Normal {| csr_statusCode := statusCode outcome;
                   certificateSigningRequest := None |}, s')) /\
  (call s getRejectedList_methodToCall = (Normal outcome, s') ->
   run getRejectedList s =
     (Normal {| grl_statusCode := statusCode outcome;
                certificates := None |}, s')) /\
  (forall certificateGroupId certificateTypeId certificate
          issuerCertificates privateKeyFormat privateKey,
      call s (updateCertificate_methodToCall certificateGroupId
                certificateTypeId certificate issuerCertificates
                privateKeyFormat privateKey) = (Normal outcome, s') ->
      run (updateCertificate certificateGroupId certificateTypeId
             certificate issuerCertificates privateKeyFormat privateKey) s =
        (Normal {| uc_statusCode := statusCode outcome;
                   applyChangeRequired := None |}, s')).
Proof.
  intros Hbad. repeat split; intros.
  - unfold createSigningRequest.
    match goal with Hc : call _ _ = _ |- _ => settle Hc end.
    is_not_good Hbad. reflexivity.
  - unfold getRejectedList.
    match goal with Hc : call _ _ = _ |- _ => settle Hc end.
    is_not_good Hbad. reflexivity.
  - unfold updateCertificate.
    match goal with Hc : call _ _ = _ |- _ => settle Hc end.
    is_not_good Hbad. reflexivity.
Qed.
End Outcomes.

(** ** Building the invocation *)

(** C5.  createSigningRequest sends one request, to the CreateSigningRequest
    method of the ServerConfiguration object, with exactly five arguments in
    this order: the certificate group (a node id), the certificate type (a
    node id), the subject name (a string), the regenerate flag (a boolean,
    [false] when the parameter is left out) and the nonce (a [ByteString]
    when it is given, [Null] when it is not). *)
Theorem createSigningRequest_builds_five_arguments
    (certificateGroupId certificateTypeId : NodeId) (subjectName : string)
    (regeneratePrivateKey : option bool) (nonce : option Buffer)
    (answer : CallMethodRequestLike -> Completion CallMethodResult) :
  let sent :=
    createSigningRequest_methodToCall certificateGroupId certificateTypeId
      subjectName regeneratePrivateKey nonce in
  requests answer
    (createSigningRequest certificateGroupId certificateTypeId subjectName
       regeneratePrivateKey nonce) = [sent] /\
  methodId sent = createSigningRequestMethod /\
  objectId sent = serverConfigurationNodeId /\
  inputArguments sent =
    [ mkVariantLike DataType.NodeId None (Some (JsNodeId certificateGroupId));
      mkVariantLike DataType.NodeId None (Some (JsNodeId certificateTypeId));
      mkVariantLike DataType.String None (Some (JsString subjectName));
      mkVariantLike DataType.Boolean None
        (Some (JsBoolean (match regeneratePrivateKey with
                          | Some b => b
                          | None => false
                          end)));
      match nonce with
      | Some entropy =>
          mkVariantLike DataType.ByteString None (Some (JsBuffer entropy))
      | None => mkVariantLike DataType.Null None (Some JsUndefined)
      end ] /\
  map argument_kind (inputArguments sent) =
    [ Kind.Identifier; Kind.Identifier; Kind.Text; Kind.Boolean;
      match nonce with Some _ => Kind.RawBytes | None => Kind.Absent end ] /\
  List.length (inputArguments sent) = 5.
Proof.
  cbv zeta. split; [reflexivity | ]. split; [reflexivity | ].
  split; [reflexivity | ].
  destruct regeneratePrivateKey as [[ | ] | ], nonce as [entropy | ];
    repeat split.
Qed.


(** C7.  getCertificateGroupId maps the name "DefaultApplicationGroup" to the
    node id of the default application group ([i=14156]), and given any
    other name it throws [Error("Not Implemented yet")] and returns no node
    id.  It never calls the session. *)
Theorem getCertificateGroupId_knows_the_default_group_only :
  getCertificateGroupId "DefaultApplicationGroup" =
    Settled (Normal defaultApplicationGroup) /\
  defaultApplicationGroup = makeNodeId 14156 0 /\
  (forall name : string,
      name <> "DefaultApplicationGroup" ->
      getCertificateGroupId name =
        Settled (Throw (Error "Not Implemented yet"))).
Proof.
  split; [reflexivity | split; [reflexivity | ]].
  intros name Hname. unfold getCertificateGroupId.
  destruct (String.eqb_spec name "DefaultApplicationGroup") as [Heq | _].
  - contradiction.
  - reflexivity.
Qed.

(** C10.  updateCertificate decides both private key arguments by the
    truthiness of [privateKeyFormat] alone.  A private key given with no
    format, or with the empty string as format, is left out of the request
    that is sent: its fifth and sixth arguments are both [Null], no argument
    holds the key, and the request is sent all the same, equal to the one
    sent without a key.  A non-empty format given with no private key sends
    the format as fifth argument and, as sixth, a [ByteString] whose value
    is [undefined]. *)
Theorem updateCertificate_gates_key_on_format
    (certificateGroupId certificateTypeId : NodeId) (certificate : Buffer)
    (issuerCertificates : list Buffer) :
  (forall (privateKeyFormat : option string) (privateKey : Buffer) answer,
      privateKeyFormat = None \/ privateKeyFormat = Some "" ->
      exists sent,
        requests answer
          (updateCertificate certificateGroupId certificateTypeId
             certificate issuerCertificates privateKeyFormat
             (Some privateKey)) = [sent] /\
        methodId sent = updateCertificateMethod /\
        objectId sent = serverConfigurationNodeId /\
        inputArguments sent =
          [ mkVariantLike DataType.NodeId None
              (Some (JsNodeId certificateGroupId));
            mkVariantLike DataType.NodeId None
              (Some (JsNodeId certificateTypeId));
            mkVariantLike DataType.ByteString None
              (Some (JsBuffer certificate));
            mkVariantLike DataType.ByteString (Some VariantArrayType.Array)
              (Some (JsArray (map JsBuffer issuerCertificates)));
            mkVariantLike DataType.Null None None;
            mkVariantLike DataType.Null None None ] /\
        nth_error (inputArguments sent) 4 =
          Some (mkVariantLike DataType.Null None None) /\
        nth_error (inputArguments sent) 5 =
          Some (mkVariantLike DataType.Null None None) /\
        requests answer
          (updateCertificate certificateGroupId certificateTypeId
             certificate issuerCertificates privateKeyFormat None) =
          [sent]) /\
  (forall (format : string) answer,
      format <> "" ->
      exists sent key,
        requests answer
          (updateCertificate certificateGroupId certificateTypeId
             certificate issuerCertificates (Some format) None) = [sent] /\
        methodId sent = updateCertificateMethod /\
        objectId sent = serverConfigurationNodeId /\
        List.length (inputArguments sent) = 6 /\
        nth_error (inputArguments sent) 4 =
          Some (mkVariantLike DataType.String None
                  (Some (JsString format))) /\
        nth_error (inputArguments sent) 5 = Some key /\
        key = mkVariantLike DataType.ByteString None (Some JsUndefined) /\
        argument_kind key = Kind.RawBytes /\
        argument_content key = None).
Proof.
  split.
  - intros privateKeyFormat privateKey answer Hformat.
    assert (Hfalsy : truthy_string privateKeyFormat = false)
      by (destruct Hformat as [-> | ->]; reflexivity).
    eexists. split.
    + unfold updateCertificate. rewrite requests_await_call. reflexivity.
    + unfold updateCertificate, updateCertificate_methodToCall,
        updateCertificate_inputArguments.
      rewrite requests_await_call, Hfalsy. simpl. repeat split.
  - intros format answer Hformat.
    assert (Htruthy : truthy_string (Some format) = true).
    { simpl. destruct (String.eqb_spec format "") as [Heq | _];
        [contradiction | reflexivity]. }
    eexists. eexists. split.
    + unfold updateCertificate. rewrite requests_await_call. reflexivity.
    + unfold updateCertificate_methodToCall,
        updateCertificate_inputArguments.
      rewrite Htruthy. simpl. repeat split.
Qed.

(** ** Malformed success *)

Section MalformedSuccess.
Context {S : Type} `{IBasicSession S}.

(** C8.  When the session answers createSigningRequest with status [Good]
  and exactly one output of kind Raw-Bytes, the result is [Good] with
  [certificateSigningRequest] the content of that output. *)
Theorem createSigningRequest_returns_the_request
  (s s' : S) (outcome : CallMethodResult) (v : Variant)
  (certificateGroupId certificateTypeId : NodeId) (subjectName : string)
  (regeneratePrivateKey : option bool) (nonce : option Buffer) :
call s (createSigningRequest_methodToCall certificateGroupId
          certificateTypeId subjectName regeneratePrivateKey nonce) =
  (Normal outcome, s') ->
statusCode outcome = StatusCodes.Good ->
outputArguments outcome = Some [v] ->
kind v = Kind.RawBytes ->
run (createSigningRequest certificateGroupId certificateTypeId subjectName
       regeneratePrivateKey nonce) s =
  (Normal {| csr_statusCode := StatusCodes.Good;
             certificateSigningRequest := Some (value v) |}, s').
Proof.
intros Hcall Hgood Hout _. unfold createSigningRequest. settle Hcall.
is_good Hgood. rewrite Hout. reflexivity.
Qed.

(** C9.  When the session answers with status [Good] and no output (an empty
  or a missing sequence), createSigningRequest and getRejectedList do not
  resolve with a failure status: reading the first output throws a
  [TypeError], which rejects the method.  updateCertificate, which counts
  its outputs first, resolves with [BadInternalError]. *)
Theorem missing_output_throws_except_in_updateCertificate
  (s s' : S) (outcome : CallMethodResult) :
statusCode outcome = StatusCodes.Good ->
outputArguments outcome = None \/ outputArguments outcome = Some [] ->
(forall certificateGroupId certificateTypeId subjectName
        regeneratePrivateKey nonce,
    call s (createSigningRequest_methodToCall certificateGroupId
              certificateTypeId subjectName regeneratePrivateKey nonce) =
      (Normal outcome, s') ->
    run (createSigningRequest certificateGroupId certificateTypeId
           subjectName regeneratePrivateKey nonce) s =
      (Throw TypeError, s')) /\
(call s getRejectedList_methodToCall = (Normal outcome, s') ->
 run getRejectedList s = (Throw TypeError, s')) /\
(forall certificateGroupId certificateTypeId certificate
        issuerCertificates privateKeyFormat privateKey,
    call s (updateCertificate_methodToCall certificateGroupId
              certificateTypeId certificate issuerCertificates
              privateKeyFormat privateKey) = (Normal outcome, s') ->
    run (updateCertificate certificateGroupId certificateTypeId
           certificate issuerCertificates privateKeyFormat privateKey) s =
      (Normal {| uc_statusCode := StatusCodes.BadInternalError;
                 applyChangeRequired := None |}, s')).
Proof.
intros Hgood Hout. repeat split; intros.
- unfold createSigningRequest.
  match goal with Hc : call _ _ = _ |- _ => settle Hc end.
  is_good Hgood. destruct Hout as [-> | ->]; reflexivity.
- unfold getRejectedList.
  match goal with Hc : call _ _ = _ |- _ => settle Hc end.
  is_good Hgood. destruct Hout as [-> | ->]; reflexivity.
- unfold updateCertificate.
  match goal with Hc : call _ _ = _ |- _ => settle Hc end.
  is_good Hgood. destruct Hout as [-> | ->]; reflexivity.
Qed.
End MalformedSuccess.

(** ** The scenarios, played against the scripted session *)

(** A successful reply with one boolean is refused; one with an array of
    byte strings is returned as the certificates. *)
Lemma getRejectedList_checks_dataType_scenarios :
  run getRejectedList (answering (good (Some [boolean true]))) =
    (Normal {| grl_statusCode := StatusCodes.BadInvalidArgument;
               certificates := None |},
     after getRejectedList_methodToCall) /\
  run getRejectedList (answering (good (Some [bytes_array [sample_der]]))) =
    (Normal {| grl_statusCode := StatusCodes.Good;
               certificates := Some (JsArray [JsBuffer sample_der]) |},
     after getRejectedList_methodToCall).
Proof.
  split.
  - apply (proj1 (getRejectedList_checks_dataType
                    (answering (good (Some [boolean true])))
                    (after getRejectedList_methodToCall)
                    (good (Some [boolean true])) (boolean true) []
                    eq_refl eq_refl eq_refl)).
    discriminate.
  - apply (proj2 (proj2 (getRejectedList_checks_dataType
                    (answering (good (Some [bytes_array [sample_der]])))
                    (after getRejectedList_methodToCall)
                    (good (Some [bytes_array [sample_der]]))
                    (bytes_array [sample_der]) []
                    eq_refl eq_refl eq_refl))).
    reflexivity.
Defined.

(** Scenario C, and its opposite: any output makes applyChanges throw, under
    a good and under a bad status alike. *)
Lemma applyChanges_scenarios :
  run applyChanges (answering (good (Some []))) =
    (Normal StatusCodes.Good, after applyChanges_methodToCall) /\
  run applyChanges (answering (good (Some [boolean true]))) =
    (Throw (Error "Invalid  output arguments"),
     after applyChanges_methodToCall) /\
  run applyChanges (answering (denied (Some [boolean true]))) =
    (Throw (Error "Invalid  output arguments"),
     after applyChanges_methodToCall).
Proof.
  split; [ | split].
  - apply (proj2 (applyChanges_rejects_outputs
                    (answering (good (Some [])))
                    (after applyChanges_methodToCall)
                    (good (Some [])) eq_refl)).
    left. reflexivity.
  - apply (proj1 (applyChanges_rejects_outputs
                    (answering (good (Some [boolean true])))
                    (after applyChanges_methodToCall)
                    (good (Some [boolean true])) eq_refl)
             (boolean true) []).
    reflexivity.
  - apply (proj1 (applyChanges_rejects_outputs
                    (answering (denied (Some [boolean true])))
                    (after applyChanges_methodToCall)
                    (denied (Some [boolean true])) eq_refl)
             (boolean true) []).
    reflexivity.
Defined.

(** Scenario D, and a successful reply with two outputs. *)
Lemma updateCertificate_arity_scenarios :
  run (updateCertificate defaultApplicationGroup sample_type sample_der []
         None None)
      (answering (good (Some [boolean true]))) =
    (Normal {| uc_statusCode := StatusCodes.Good;
               applyChangeRequired := Some (JsBoolean true) |},
     after (updateCertificate_methodToCall defaultApplicationGroup
              sample_type sample_der [] None None)) /\
  run (updateCertificate defaultApplicationGroup sample_type sample_der []
         None None)
      (answering (good (Some [boolean true; boolean false]))) =
    (Normal {| uc_statusCode := StatusCodes.BadInternalError;
               applyChangeRequired := None |},
     after (updateCertificate_methodToCall defaultApplicationGroup
              sample_type sample_der [] None None)).
Proof.
  split.
  - apply (proj2 (updateCertificate_checks_arity
                    (answering (good (Some [boolean true])))
                    (after (updateCertificate_methodToCall
                              defaultApplicationGroup sample_type
                              sample_der [] None None))
                    (good (Some [boolean true]))
                    defaultApplicationGroup sample_type sample_der []
                    None None eq_refl eq_refl)
             (boolean true)).
    reflexivity.
  - apply (proj1 (updateCertificate_checks_arity
                    (answering (good (Some [boolean true; boolean false])))
                    (after (updateCertificate_methodToCall
                              defaultApplicationGroup sample_type
                              sample_der [] None None))
                    (good (Some [boolean true; boolean false]))
                    defaultApplicationGroup sample_type sample_der []
                    None None eq_refl eq_refl)).
    discriminate.
Defined.

(** Scenario B: access denied, with an output present all the same. *)
Lemma failure_status_scenarios :
  run (createSigningRequest defaultApplicationGroup sample_type
         sample_subject None None)
      (answering (denied (Some [scalar_bytes sample_der]))) =
    (Normal {| csr_statusCode := StatusCodes.BadUserAccessDenied;
               certificateSigningRequest := None |},
     after (createSigningRequest_methodToCall defaultApplicationGroup
              sample_type sample_subject None None)) /\
  run getRejectedList (answering (denied (Some [scalar_bytes sample_der]))) =
    (Normal {| grl_statusCode := StatusCodes.BadUserAccessDenied;
               certificates := None |},
     after getRejectedList_methodToCall) /\
  run (updateCertificate defaultApplicationGroup sample_type sample_der []
         None None)
      (answering (denied (Some [scalar_bytes sample_der]))) =
    (Normal {| uc_statusCode := StatusCodes.BadUserAccessDenied;
               applyChangeRequired := None |},
     after (updateCertificate_methodToCall defaultApplicationGroup
              sample_type sample_der [] None None)).
Proof.
  assert (Hbad : statusCode (denied (Some [scalar_bytes sample_der])) <>
                 StatusCodes.Good) by discriminate.
  split; [ | split].
  - apply (proj1 (failure_status_is_propagated
                    (answering (denied (Some [scalar_bytes sample_der])))
                    (after (createSigningRequest_methodToCall
                              defaultApplicationGroup sample_type
                              sample_subject None None))
                    (denied (Some [scalar_bytes sample_der])) Hbad)).
    reflexivity.
  - apply (proj1 (proj2 (failure_status_is_propagated
                    (answering (denied (Some [scalar_bytes sample_der])))
                    (after getRejectedList_methodToCall)
                    (denied (Some [scalar_bytes sample_der])) Hbad))).
    reflexivity.
  - apply (proj2 (proj2 (failure_status_is_propagated
                    (answering (denied (Some [scalar_bytes sample_der])))
                    (after (updateCertificate_methodToCall
                              defaultApplicationGroup sample_type
                              sample_der [] None None))
                    (denied (Some [scalar_bytes sample_der])) Hbad))).
    reflexivity.
Defined.

(** A name the resolver does not know. *)
Lemma getCertificateGroupId_other_name :
  getCertificateGroupId "DefaultUserTokenGroup" =
    Settled (Throw (Error "Not Implemented yet")).
Proof.
  apply (proj2 (proj2 getCertificateGroupId_knows_the_default_group_only)).
  discriminate.
Defined.

(** Scenario A: the signing request [0xAA 0xBB]. *)
Lemma createSigningRequest_scenario_A :
  run (createSigningRequest defaultApplicationGroup sample_type
         sample_subject None None)
      (answering (good (Some [scalar_bytes [xaa; xbb]]))) =
    (Normal {| csr_statusCode := StatusCodes.Good;
               certificateSigningRequest := Some (JsBuffer [xaa; xbb]) |},
     after (createSigningRequest_methodToCall defaultApplicationGroup
              sample_type sample_subject None None)).
Proof.
  apply (createSigningRequest_returns_the_request
           (answering (good (Some [scalar_bytes [xaa; xbb]])))
           (after (createSigningRequest_methodToCall defaultApplicationGroup
                     sample_type sample_subject None None))
           (good (Some [scalar_bytes [xaa; xbb]]))
           (scalar_bytes [xaa; xbb])
           defaultApplicationGroup sample_type sample_subject None None
           eq_refl eq_refl eq_refl eq_refl).
Defined.

(** A successful reply that carries no output at all. *)
Lemma missing_output_scenarios :
  run (createSigningRequest defaultApplicationGroup sample_type
         sample_subject None None)
      (answering (good (Some []))) =
    (Throw TypeError,
     after (createSigningRequest_methodToCall defaultApplicationGroup
              sample_type sample_subject None None)) /\
  run getRejectedList (answering (good None)) =
    (Throw TypeError, after getRejectedList_methodToCall) /\
  run (updateCertificate defaultApplicationGroup sample_type sample_der []
         None None)
      (answering (good (Some []))) =
    (Normal {| uc_statusCode := StatusCodes.BadInternalError;
               applyChangeRequired := None |},
     after (updateCertificate_methodToCall defaultApplicationGroup
              sample_type sample_der [] None None)).
Proof.
  split; [ | split].
  - apply (proj1 (missing_output_throws_except_in_updateCertificate
                    (answering (good (Some [])))
                    (after (createSigningRequest_methodToCall
                              defaultApplicationGroup sample_type
                              sample_subject None None))
                    (good (Some [])) eq_refl (or_intror eq_refl))).
    reflexivity.
  - apply (proj1 (proj2 (missing_output_throws_except_in_updateCertificate
                    (answering (good None))
                    (after getRejectedList_methodToCall)
                    (good None) eq_refl (or_introl eq_refl)))).
    reflexivity.
  - apply (proj2 (proj2 (missing_output_throws_except_in_updateCertificate
                    (answering (good (Some [])))
                    (after (updateCertificate_methodToCall
                              defaultApplicationGroup sample_type
                              sample_der [] None None))
                    (good (Some [])) eq_refl (or_intror eq_refl)))).
    reflexivity.
Defined.

(** A key with an empty format, and a format with no key. *)
Lemma updateCertificate_half_pairs :
  (exists sent,
      requests (fun _ => Throw TypeError)
        (updateCertificate defaultApplicationGroup sample_type sample_der
           [] (Some "") (Some sample_key)) = [sent] /\
      methodId sent = updateCertificateMethod /\
      objectId sent = serverConfigurationNodeId /\
      inputArguments sent =
        [ mkVariantLike DataType.NodeId None
            (Some (JsNodeId defaultApplicationGroup));
          mkVariantLike DataType.NodeId None (Some (JsNodeId sample_type));
          mkVariantLike DataType.ByteString None
            (Some (JsBuffer sample_der));
          mkVariantLike DataType.ByteString (Some VariantArrayType.Array)
            (Some (JsArray (map JsBuffer [])));
          mkVariantLike DataType.Null None None;
          mkVariantLike DataType.Null None None ] /\
      nth_error (inputArguments sent) 4 =
        Some (mkVariantLike DataType.Null None None) /\
      nth_error (inputArguments sent) 5 =
        Some (mkVariantLike DataType.Null None None) /\
      requests (fun _ => Throw TypeError)
        (updateCertificate defaultApplicationGroup sample_type sample_der
           [] (Some "") None) = [sent]) /\
  (exists sent key,
      requests (fun _ => Throw TypeError)
        (updateCertificate defaultApplicationGroup sample_type sample_der
           [] (Some "PEM") None) = [sent] /\
      methodId sent = updateCertificateMethod /\
      objectId sent = serverConfigurationNodeId /\
      List.length (inputArguments sent) = 6 /\
      nth_error (inputArguments sent) 4 =
        Some (mkVariantLike DataType.String None (Some (JsString "PEM"))) /\
      nth_error (inputArguments sent) 5 = Some key /\
      key = mkVariantLike DataType.ByteString None (Some JsUndefined) /\
      argument_kind key = Kind.RawBytes /\
      argument_content key = None).
Proof.
  split.
  - apply (proj1 (updateCertificate_gates_key_on_format
                    defaultApplicationGroup sample_type sample_der [])
             (Some "") sample_key (fun _ => Throw TypeError)
             (or_intror eq_refl)).
  - apply (proj2 (updateCertificate_gates_key_on_format
                    defaultApplicationGroup sample_type sample_der [])
             "PEM" (fun _ => Throw TypeError)).
    discriminate.
Defined.

(** ** Beyond the scenarios: what holds for every reply *)

(** Case analysis on a settled method: the status test, the outputs and,
    for getRejectedList, the data type of the first one. *)
Ltac settled_cases Hcall Hrun outcome :=
  rewrite (run_await_call _ _ _ _ _ Hcall) in Hrun;
  cbn [Completion_bind] in Hrun;
  let Estatus := fresh "Estatus" in
  destruct (StatusCode_eqb (statusCode outcome) StatusCodes.Good)
    eqn:Estatus;
  [ apply StatusCode_eqb_eq in Estatus
  | apply StatusCode_eqb_neq in Estatus ];
  destruct (outputArguments outcome) as [[ | ?v [ | ?w ?l]] | ];
  simpl in Hrun;
  repeat match type of Hrun with
         | context [DataType.eqb ?d DataType.ByteString] =>
             destruct (DataType.eqb d DataType.ByteString); simpl in Hrun
         end;
  try discriminate Hrun;
  injection Hrun as ? ?; subst.

Section EveryReply.
Context {S : Type} `{IBasicSession S}.

(** The run of a method that awaits one call, whatever the call does. *)
Lemma run_await_call_eq {A} (req : CallMethodRequestLike)
    (body : CallMethodResult -> Completion A) (s : S) :
  run (await_call req body) s =
    (Completion_bind (fst (call s req)) body, snd (call s req)).
Proof.
  unfold await_call. simpl. destruct (call s req) as [settled s'].
  reflexivity.
Qed.

(** X1.  None of the four calling methods has a [try]/[catch] around its
    [await]: when [session.call] itself rejects, the method rejects with the
    very same error, and builds no result record and no status. *)
Theorem session_failure_is_not_caught (s s' : S) (e : JsError) :
  (forall certificateGroupId certificateTypeId subjectName
          regeneratePrivateKey nonce,
      call s (createSigningRequest_methodToCall certificateGroupId
                certificateTypeId subjectName regeneratePrivateKey nonce) =
        (Throw e, s') ->
      run (createSigningRequest certificateGroupId certificateTypeId
             subjectName regeneratePrivateKey nonce) s = (Throw e, s')) /\
  (call s getRejectedList_methodToCall = (Throw e, s') ->
   run getRejectedList s = (Throw e, s')) /\
  (forall certificateGroupId certificateTypeId certificate
          issuerCertificates privateKeyFormat privateKey,
      call s (updateCertificate_methodToCall certificateGroupId
                certificateTypeId certificate issuerCertificates
                privateKeyFormat privateKey) = (Throw e, s') ->
      run (updateCertificate certificateGroupId certificateTypeId
             certificate issuerCertificates privateKeyFormat privateKey) s =
        (Throw e, s')) /\
  (call s applyChanges_methodToCall = (Throw e, s') ->
   run applyChanges s = (Throw e, s')).
Proof.
  repeat split; intros;
    match goal with
    | Hc : call _ _ = _ |- _ => exact (run_await_call_rejected _ _ _ _ _ Hc)
    end.
Qed.

(** X2.  Every calling method performs exactly one session call, whatever
    the session answers (no retry, no second round trip): the session it
    leaves behind is the one that single call returned.  The call always
    targets the ServerConfiguration object, and getRejectedList and
    applyChanges pass no input argument. *)
Theorem each_method_calls_the_session_once
    (s : S) (answer : CallMethodRequestLike -> Completion CallMethodResult) :
  (forall certificateGroupId certificateTypeId subjectName
          regeneratePrivateKey nonce,
      let sent := createSigningRequest_methodToCall certificateGroupId
                    certificateTypeId subjectName regeneratePrivateKey nonce in
      requests answer
        (createSigningRequest certificateGroupId certificateTypeId
           subjectName regeneratePrivateKey nonce) = [sent] /\
      snd (run (createSigningRequest certificateGroupId certificateTypeId
                  subjectName regeneratePrivateKey nonce) s) =
        snd (call s sent) /\
      objectId sent = makeNodeId 12637 0 /\
      methodId sent = makeNodeId 12737 0) /\
  (requests answer getRejectedList = [getRejectedList_methodToCall] /\
   snd (run getRejectedList s) = snd (call s getRejectedList_methodToCall) /\
   getRejectedList_methodToCall =
     mkCallMethodRequest [] (makeNodeId 12777 0) (makeNodeId 12637 0)) /\
  (forall certificateGroupId certificateTypeId certificate
          issuerCertificates privateKeyFormat privateKey,
      let sent := updateCertificate_methodToCall certificateGroupId
                    certificateTypeId certificate issuerCertificates
                    privateKeyFormat privateKey in
      requests answer
        (updateCertificate certificateGroupId certificateTypeId certificate
           issuerCertificates privateKeyFormat privateKey) = [sent] /\
      snd (run (updateCertificate certificateGroupId certificateTypeId
                  certificate issuerCertificates privateKeyFormat
                  privateKey) s) = snd (call s sent) /\
      objectId sent = makeNodeId 12637 0 /\
      methodId sent = makeNodeId 13737 0) /\
  (requests answer applyChanges = [applyChanges_methodToCall] /\
   snd (run applyChanges s) = snd (call s applyChanges_methodToCall) /\
   applyChanges_methodToCall =
     mkCallMethodRequest [] (makeNodeId 12740 0) (makeNodeId 12637 0)).
Proof.
  repeat split;
    try (unfold createSigningRequest, getRejectedList, updateCertificate,
           applyChanges; rewrite run_await_call_eq; reflexivity).
Qed.

(** X4.  On [Good], createSigningRequest checks neither the kind nor the
    number of the outputs: whatever the first output is (a boolean, say) and
    however many follow, its value is returned as
    [certificateSigningRequest] under status [Good]. *)
Theorem createSigningRequest_trusts_the_first_output
    (s s' : S) (outcome : CallMethodResult)
    (v : Variant) (others : list Variant)
    (certificateGroupId certificateTypeId : NodeId) (subjectName : string)
    (regeneratePrivateKey : option bool) (nonce : option Buffer) :
  call s (createSigningRequest_methodToCall certificateGroupId
            certificateTypeId subjectName regeneratePrivateKey nonce) =
    (Normal outcome, s') ->
  statusCode outcome = StatusCodes.Good ->
  outputArguments outcome = Some (v :: others) ->
  run (createSigningRequest certificateGroupId certificateTypeId subjectName
         regeneratePrivateKey nonce) s =
    (Normal {| csr_statusCode := StatusCodes.Good;
               certificateSigningRequest := Some (value v) |}, s').
Proof.
  intros Hcall Hgood Hout. unfold createSigningRequest. settle Hcall.
  is_good Hgood. rewrite Hout. reflexivity.
Qed.

(** X5.  In every record that createSigningRequest, getRejectedList or
    updateCertificate resolves with, whatever the session replied, the typed
    property ([certificateSigningRequest], [certificates],
    [applyChangeRequired]) is present exactly when the record's status is
    the [StatusCodes.Good] object itself.  (A status of code 0 that is
    another object takes the failure branch and comes back alone.) *)
Theorem typed_property_present_iff_good
    (s s' s2 : S) (outcome : CallMethodResult) :
  (forall certificateGroupId certificateTypeId subjectName
          regeneratePrivateKey nonce result,
      call s (createSigningRequest_methodToCall certificateGroupId
                certificateTypeId subjectName regeneratePrivateKey nonce) =
        (Normal outcome, s') ->
      run (createSigningRequest certificateGroupId certificateTypeId
             subjectName regeneratePrivateKey nonce) s =
        (Normal result, s2) ->
      (certificateSigningRequest result <> None <->
       csr_statusCode result = StatusCodes.Good)) /\
  (forall result,
      call s getRejectedList_methodToCall = (Normal outcome, s') ->
      run getRejectedList s = (Normal result, s2) ->
      (certificates result <> None <->
       grl_statusCode result = StatusCodes.Good)) /\
  (forall certificateGroupId certificateTypeId certificate
          issuerCertificates privateKeyFormat privateKey result,
      call s (updateCertificate_methodToCall certificateGroupId
                certificateTypeId certificate issuerCertificates
                privateKeyFormat privateKey) = (Normal outcome, s') ->
      run (updateCertificate certificateGroupId certificateTypeId
             certificate issuerCertificates privateKeyFormat privateKey) s =
        (Normal result, s2) ->
      (applyChangeRequired result <> None <->
       uc_statusCode result = StatusCodes.Good)).
Proof.
  split; [ | split].
  - intros g t n r e result Hcall Hrun. unfold createSigningRequest in Hrun.
    settled_cases Hcall Hrun outcome; simpl; split; intro;
      congruence || discriminate.
  - intros result Hcall Hrun. unfold getRejectedList in Hrun.
    settled_cases Hcall Hrun outcome; simpl; split; intro;
      congruence || discriminate.
  - intros g t c i f k result Hcall Hrun. unfold updateCertificate in Hrun.
    settled_cases Hcall Hrun outcome; simpl; split; intro;
      congruence || discriminate.
Qed.
End EveryReply.

Section HowMethodsSettle.
Context {S : Type} `{IBasicSession S}.

(** X6.  Where the status of a result comes from.  createSigningRequest
    never alters the status the session returned.  getRejectedList and
    updateCertificate alter it in one way only: a [Good] from the session
    may become [BadInvalidArgument], respectively [BadInternalError].  So a
    failure status is never masked, and no method reports [Good] unless the
    session did. *)
Theorem result_status_comes_from_the_session
    (s s' s2 : S) (outcome : CallMethodResult) :
  (forall certificateGroupId certificateTypeId subjectName
          regeneratePrivateKey nonce result,
      call s (createSigningRequest_methodToCall certificateGroupId
                certificateTypeId subjectName regeneratePrivateKey nonce) =
        (Normal outcome, s') ->
      run (createSigningRequest certificateGroupId certificateTypeId
             subjectName regeneratePrivateKey nonce) s =
        (Normal result, s2) ->
      csr_statusCode result = statusCode outcome) /\
  (forall result,
      call s getRejectedList_methodToCall = (Normal outcome, s') ->
      run getRejectedList s = (Normal result, s2) ->
      grl_statusCode result = statusCode outcome \/
      statusCode outcome = StatusCodes.Good /\
      grl_statusCode result = StatusCodes.BadInvalidArgument) /\
  (forall certificateGroupId certificateTypeId certificate
          issuerCertificates privateKeyFormat privateKey result,
      call s (updateCertificate_methodToCall certificateGroupId
                certificateTypeId certificate issuerCertificates
                privateKeyFormat privateKey) = (Normal outcome, s') ->
      run (updateCertificate certificateGroupId certificateTypeId
             certificate issuerCertificates privateKeyFormat privateKey) s =
        (Normal result, s2) ->
      uc_statusCode result = statusCode outcome \/
      statusCode outcome = StatusCodes.Good /\
      uc_statusCode result = StatusCodes.BadInternalError) /\
  (forall status,
      call s applyChanges_methodToCall = (Normal outcome, s') ->
      run applyChanges s = (Normal status, s2) ->
      status = statusCode outcome).
Proof.
  split; [ | split; [ | split]].
  - intros g t n r e result Hcall Hrun. unfold createSigningRequest in Hrun.
    settled_cases Hcall Hrun outcome; reflexivity.
  - intros result Hcall Hrun. unfold getRejectedList in Hrun.
    settled_cases Hcall Hrun outcome; simpl; auto.
  - intros g t c i f k result Hcall Hrun. unfold updateCertificate in Hrun.
    settled_cases Hcall Hrun outcome; simpl; auto.
  - intros status Hcall Hrun. unfold applyChanges in Hrun.
    rewrite (run_await_call _ _ _ _ _ Hcall) in Hrun.
    cbn [Completion_bind] in Hrun.
    destruct (has_elements (outputArguments outcome)); [discriminate | ].
    injection Hrun as ? ?; subst; reflexivity.
Qed.

(** X10.  Once the session call has resolved, updateCertificate never
    throws: for every status and every shape of outputs (missing, empty,
    one, several) it resolves with a result record. *)
Theorem updateCertificate_always_resolves
    (s s' : S) (outcome : CallMethodResult)
    (certificateGroupId certificateTypeId : NodeId) (certificate : Buffer)
    (issuerCertificates : list Buffer)
    (privateKeyFormat : option string) (privateKey : option Buffer) :
  call s (updateCertificate_methodToCall certificateGroupId
            certificateTypeId certificate issuerCertificates
            privateKeyFormat privateKey) = (Normal outcome, s') ->
  exists result,
    run (updateCertificate certificateGroupId certificateTypeId certificate
           issuerCertificates privateKeyFormat privateKey) s =
      (Normal result, s').
Proof.
  intros Hcall. unfold updateCertificate. settle Hcall.
  destruct (StatusCode_eqb (statusCode outcome) StatusCodes.Good);
    [ | eexists; reflexivity].
  destruct (outputArguments outcome) as [[ | v [ | w l]] | ];
    simpl; eexists; reflexivity.
Qed.

(** X11.  The only local errors.  After a resolved session call,
    createSigningRequest and getRejectedList reject only when the status is
    [Good] and there is no first output, and then with a [TypeError];
    applyChanges rejects only when there is at least one output, and then
    with [Error("Invalid  output arguments")]. *)
Theorem local_errors_have_one_cause_each
    (s s' s2 : S) (outcome : CallMethodResult) (e : JsError) :
  (forall certificateGroupId certificateTypeId subjectName
          regeneratePrivateKey nonce,
      call s (createSigningRequest_methodToCall certificateGroupId
                certificateTypeId subjectName regeneratePrivateKey nonce) =
        (Normal outcome, s') ->
      run (createSigningRequest certificateGroupId certificateTypeId
             subjectName regeneratePrivateKey nonce) s = (Throw e, s2) ->
      statusCode outcome = StatusCodes.Good /\
      (outputArguments outcome = None \/ outputArguments outcome = Some []) /\
      e = TypeError) /\
  (call s getRejectedList_methodToCall = (Normal outcome, s') ->
   run getRejectedList s = (Throw e, s2) ->
   statusCode outcome = StatusCodes.Good /\
   (outputArguments outcome = None \/ outputArguments outcome = Some []) /\
   e = TypeError) /\
  (call s applyChanges_methodToCall = (Normal outcome, s') ->
   run applyChanges s = (Throw e, s2) ->
   (exists v others, outputArguments outcome = Some (v :: others)) /\
   e = Error "Invalid  output arguments").
Proof.
  split; [ | split].
  - intros g t n r x Hcall Hrun. unfold createSigningRequest in Hrun.
    rewrite (run_await_call _ _ _ _ _ Hcall) in Hrun.
    cbn [Completion_bind] in Hrun.
    destruct (StatusCode_eqb (statusCode outcome) StatusCodes.Good)
      eqn:Estatus; [ | discriminate].
    apply StatusCode_eqb_eq in Estatus.
    destruct (outputArguments outcome) as [[ | v l] | ]; simpl in Hrun;
      try discriminate; injection Hrun as <- _; auto.
  - intros Hcall Hrun. unfold getRejectedList in Hrun.
    rewrite (run_await_call _ _ _ _ _ Hcall) in Hrun.
    cbn [Completion_bind] in Hrun.
    destruct (StatusCode_eqb (statusCode outcome) StatusCodes.Good)
      eqn:Estatus; [ | discriminate].
    apply StatusCode_eqb_eq in Estatus.
    destruct (outputArguments outcome) as [[ | v l] | ]; simpl in Hrun.
    + injection Hrun as <- _; auto.
    + destruct (DataType.eqb (dataType v) DataType.ByteString);
        discriminate.
    + injection Hrun as <- _; auto.
  - intros Hcall Hrun. unfold applyChanges in Hrun.
    rewrite (run_await_call _ _ _ _ _ Hcall) in Hrun.
    cbn [Completion_bind] in Hrun.
    destruct (outputArguments outcome) as [[ | v l] | ]; simpl in Hrun;
      try discriminate.
    injection Hrun as <- _. split; [exists v, l | ]; reflexivity.
Qed.

(** X7.  getCertificateGroupId never calls the session and leaves it as it
    found it, for every name; and it resolves only for the name
    "DefaultApplicationGroup", always with the node id of that group. *)
Theorem getCertificateGroupId_is_local
    (s : S) (name : string)
    (answer : CallMethodRequestLike -> Completion CallMethodResult) :
  requests answer (getCertificateGroupId name) = [] /\
  snd (run (getCertificateGroupId name) s) = s /\
  (forall id,
      fst (run (getCertificateGroupId name) s) = Normal id ->
      name = "DefaultApplicationGroup" /\ id = defaultApplicationGroup).
Proof.
  unfold getCertificateGroupId.
  destruct (String.eqb_spec name "DefaultApplicationGroup") as [-> | Hother];
    simpl; repeat split; try congruence; discriminate.
Qed.
End HowMethodsSettle.

(** ** What a request says about the parameters *)

Lemma map_JsBuffer_injective (l1 l2 : list Buffer) :
  map JsBuffer l1 = map JsBuffer l2 -> l1 = l2.
Proof.
  revert l2. induction l1 as [ | b l1 IH]; intros [ | c l2] Heq;
    simpl in Heq; try discriminate; [reflexivity | ].
  injection Heq as -> Htail. f_equal. apply IH, Htail.
Qed.

Lemma js_optional_JsBuffer_injective (k1 k2 : option Buffer) :
  js_optional JsBuffer k1 = js_optional JsBuffer k2 -> k1 = k2.
Proof.
  destruct k1, k2; simpl; intros Heq; congruence.
Qed.

Lemma truthy_string_some (f : option string) :
  truthy_string f = true -> exists text, f = Some text /\ text <> "".
Proof.
  destruct f as [text | ]; simpl; [ | discriminate].
  destruct (String.eqb_spec text ""); [discriminate | ].
  intros _. exists text. split; [reflexivity | assumption].
Qed.

(** X3.  updateCertificate always builds six arguments.  The first four are
    the certificate group, the certificate type, the certificate (one
    [ByteString]) and the issuer certificates (an array of [ByteString]),
    whatever is passed for the key; the last two are a string and a
    [ByteString], or two [Null]s.  When a non-empty format and a key are
    both given, the last two carry exactly that format and that key. *)
Theorem updateCertificate_builds_six_arguments
    (certificateGroupId certificateTypeId : NodeId) (certificate : Buffer)
    (issuerCertificates : list Buffer)
    (privateKeyFormat : option string) (privateKey : option Buffer) :
  let arguments :=
    updateCertificate_inputArguments certificateGroupId certificateTypeId
      certificate issuerCertificates privateKeyFormat privateKey in
  List.length arguments = 6 /\
  firstn 4 arguments =
    [ mkVariantLike DataType.NodeId None (Some (JsNodeId certificateGroupId));
      mkVariantLike DataType.NodeId None (Some (JsNodeId certificateTypeId));
      mkVariantLike DataType.ByteString None (Some (JsBuffer certificate));
      mkVariantLike DataType.ByteString (Some VariantArrayType.Array)
        (Some (JsArray (map JsBuffer issuerCertificates))) ] /\
  (map argument_kind arguments =
     [ Kind.Identifier; Kind.Identifier; Kind.RawBytes;
       Kind.RawBytesSequence; Kind.Text; Kind.RawBytes ] \/
   map argument_kind arguments =
     [ Kind.Identifier; Kind.Identifier; Kind.RawBytes;
       Kind.RawBytesSequence; Kind.Absent; Kind.Absent ]) /\
  (forall format key,
      privateKeyFormat = Some format -> format <> "" ->
      privateKey = Some key ->
      skipn 4 arguments =
        [ mkVariantLike DataType.String None (Some (JsString format));
          mkVariantLike DataType.ByteString None (Some (JsBuffer key)) ]).
Proof.
  cbv zeta. unfold updateCertificate_inputArguments.
  split; [reflexivity | split; [reflexivity | split]].
  - destruct (truthy_string privateKeyFormat); [left | right]; reflexivity.
  - intros format key -> Hformat ->. simpl.
    destruct (String.eqb_spec format ""); [contradiction | reflexivity].
Qed.

(** X8.  The request createSigningRequest builds determines its parameters,
    up to what [!!] forgets: two calls build the same request exactly when
    they agree on the group, the type, the subject name and the nonce, and
    their regenerate flags are both [true] or both not (a flag left out and
    a flag [false] cannot be told apart). *)
Theorem createSigningRequest_request_determines_parameters
    (g1 t1 : NodeId) (n1 : string) (r1 : option bool) (e1 : option Buffer)
    (g2 t2 : NodeId) (n2 : string) (r2 : option bool) (e2 : option Buffer) :
  createSigningRequest_methodToCall g1 t1 n1 r1 e1 =
  createSigningRequest_methodToCall g2 t2 n2 r2 e2 <->
  g1 = g2 /\ t1 = t2 /\ n1 = n2 /\
  truthy_boolean r1 = truthy_boolean r2 /\ e1 = e2.
Proof.
  unfold createSigningRequest_methodToCall,
    createSigningRequest_inputArguments. split.
  - intros Heq. injection Heq as Hg Ht Hn Hr Htype He.
    repeat split; try assumption.
    + destruct (truthy_boolean r1), (truthy_boolean r2);
        simpl in Hr; congruence.
    + apply js_optional_JsBuffer_injective, He.
  - intros (-> & -> & -> & Hr & ->). rewrite Hr. reflexivity.
Qed.

(** X9.  The request updateCertificate builds determines the group, the
    type, the certificate and the issuer certificates, and whether a
    non-empty format was given; when one was, it determines the format and
    the key as well, and when none was, nothing of the key is in it. *)
Theorem updateCertificate_request_determines_parameters
    (g1 t1 : NodeId) (c1 : Buffer) (i1 : list Buffer)
    (f1 : option string) (k1 : option Buffer)
    (g2 t2 : NodeId) (c2 : Buffer) (i2 : list Buffer)
    (f2 : option string) (k2 : option Buffer) :
  updateCertificate_methodToCall g1 t1 c1 i1 f1 k1 =
  updateCertificate_methodToCall g2 t2 c2 i2 f2 k2 <->
  g1 = g2 /\ t1 = t2 /\ c1 = c2 /\ i1 = i2 /\
  truthy_string f1 = truthy_string f2 /\
  (truthy_string f1 = true -> f1 = f2 /\ k1 = k2).
Proof.
  unfold updateCertificate_methodToCall, updateCertificate_inputArguments.
  split.
  - intros Heq. injection Heq as Hg Ht Hc Hi Hformat Hkey.
    apply map_JsBuffer_injective in Hi.
    destruct (truthy_string f1) eqn:E1, (truthy_string f2) eqn:E2;
      try discriminate; repeat split; try assumption; try discriminate.
    + destruct (truthy_string_some _ E1) as (x1 & -> & _).
      destruct (truthy_string_some _ E2) as (x2 & -> & _).
      simpl in Hformat. congruence.
    + injection Hkey as Hkey. apply js_optional_JsBuffer_injective, Hkey.
  - intros (-> & -> & -> & -> & Hf & Hpair).
    destruct (truthy_string f1) eqn:E1; rewrite <- Hf.
    + destruct (Hpair eq_refl) as [-> ->]. reflexivity.
    + reflexivity.
Qed.

(** ** Further scenarios *)

(** The connection drops during the call. *)
Lemma session_failure_scenarios :
  run getRejectedList (mkScripted [Throw (Error "ECONNRESET")] []) =
    (Throw (Error "ECONNRESET"), after getRejectedList_methodToCall) /\
  run applyChanges (mkScripted [Throw (Error "ECONNRESET")] []) =
    (Throw (Error "ECONNRESET"), after applyChanges_methodToCall).
Proof.
  split.
  - apply (proj1 (proj2 (session_failure_is_not_caught
                    (mkScripted [Throw (Error "ECONNRESET")] [])
                    (after getRejectedList_methodToCall)
                    (Error "ECONNRESET")))).
    reflexivity.
  - apply (proj2 (proj2 (proj2 (session_failure_is_not_caught
                    (mkScripted [Throw (Error "ECONNRESET")] [])
                    (after applyChanges_methodToCall)
                    (Error "ECONNRESET"))))).
    reflexivity.
Defined.

(** A key in PEM format is sent whole. *)
Lemma updateCertificate_full_pair :
  skipn 4 (updateCertificate_inputArguments defaultApplicationGroup
             sample_type sample_der [sample_der] (Some "PEM")
             (Some sample_key)) =
    [ mkVariantLike DataType.String None (Some (JsString "PEM"));
      mkVariantLike DataType.ByteString None (Some (JsBuffer sample_key)) ].
Proof.
  apply (proj2 (proj2 (proj2 (updateCertificate_builds_six_arguments
           defaultApplicationGroup sample_type sample_der [sample_der]
           (Some "PEM") (Some sample_key))))
           "PEM" sample_key eq_refl).
  - discriminate.
  - reflexivity.
Defined.

(** Two booleans come back from CreateSigningRequest: the first is handed
    to the caller as the signing request. *)
Lemma createSigningRequest_boolean_reply :
  run (createSigningRequest defaultApplicationGroup sample_type
         sample_subject (Some true) (Some sample_key))
      (answering (good (Some [boolean true; boolean false]))) =
    (Normal {| csr_statusCode := StatusCodes.Good;
               certificateSigningRequest := Some (JsBoolean true) |},
     after (createSigningRequest_methodToCall defaultApplicationGroup
              sample_type sample_subject (Some true) (Some sample_key))).
Proof.
  apply (createSigningRequest_trusts_the_first_output
           (answering (good (Some [boolean true; boolean false])))
           (after (createSigningRequest_methodToCall defaultApplicationGroup
                     sample_type sample_subject (Some true)
                     (Some sample_key)))
           (good (Some [boolean true; boolean false]))
           (boolean true) [boolean false]
           defaultApplicationGroup sample_type sample_subject (Some true)
           (Some sample_key) eq_refl eq_refl eq_refl).
Defined.

(** The record of a refused reply has no certificates and is not [Good];
    the record of an accepted one has both. *)
Lemma typed_property_scenarios :
  (certificates {| grl_statusCode := StatusCodes.BadInvalidArgument;
                   certificates := None |} <> None <->
   StatusCodes.BadInvalidArgument = StatusCodes.Good) /\
  (applyChangeRequired {| uc_statusCode := StatusCodes.Good;
                          applyChangeRequired := Some (JsBoolean true) |}
     <> None <->
   StatusCodes.Good = StatusCodes.Good).
Proof.
  split.
  - apply (proj1 (proj2 (typed_property_present_iff_good
                    (answering (good (Some [boolean true])))
                    (after getRejectedList_methodToCall)
                    (after getRejectedList_methodToCall)
                    (good (Some [boolean true]))))
             {| grl_statusCode := StatusCodes.BadInvalidArgument;
                certificates := None |}); reflexivity.
  - apply (proj2 (proj2 (typed_property_present_iff_good
                    (answering (good (Some [boolean true])))
                    (after (updateCertificate_methodToCall
                              defaultApplicationGroup sample_type
                              sample_der [] None None))
                    (after (updateCertificate_methodToCall
                              defaultApplicationGroup sample_type
                              sample_der [] None None))
                    (good (Some [boolean true]))))
             defaultApplicationGroup sample_type sample_der [] None None
             {| uc_statusCode := StatusCodes.Good;
                applyChangeRequired := Some (JsBoolean true) |});
      reflexivity.
Defined.

(** A refused reply: the status is the local one, and the session had said
    [Good]. *)
Lemma result_status_scenarios :
  (StatusCodes.BadInvalidArgument = StatusCodes.Good \/
   StatusCodes.Good = StatusCodes.Good /\
   StatusCodes.BadInvalidArgument = StatusCodes.BadInvalidArgument) /\
  StatusCodes.BadUserAccessDenied = StatusCodes.BadUserAccessDenied.
Proof.
  split.
  - apply (proj1 (proj2 (result_status_comes_from_the_session
                    (answering (good (Some [boolean true])))
                    (after getRejectedList_methodToCall)
                    (after getRejectedList_methodToCall)
                    (good (Some [boolean true]))))
             {| grl_statusCode := StatusCodes.BadInvalidArgument;
                certificates := None |}); reflexivity.
  - apply (proj2 (proj2 (proj2 (result_status_comes_from_the_session
                    (answering (denied None))
                    (after applyChanges_methodToCall)
                    (after applyChanges_methodToCall)
                    (denied None))))
             StatusCodes.BadUserAccessDenied); reflexivity.
Defined.

(** Three outputs where one is expected. *)
Lemma updateCertificate_resolves_on_three_outputs :
  exists result,
    run (updateCertificate defaultApplicationGroup sample_type sample_der
           [] (Some "PEM") (Some sample_key))
        (answering
           (good (Some [boolean true; boolean true; boolean true]))) =
      (Normal result,
       after (updateCertificate_methodToCall defaultApplicationGroup
                sample_type sample_der [] (Some "PEM") (Some sample_key))).
Proof.
  apply (updateCertificate_always_resolves
           (answering
              (good (Some [boolean true; boolean true; boolean true])))
           (after (updateCertificate_methodToCall defaultApplicationGroup
                     sample_type sample_der [] (Some "PEM")
                     (Some sample_key)))
           (good (Some [boolean true; boolean true; boolean true]))
           defaultApplicationGroup sample_type sample_der []
           (Some "PEM") (Some sample_key) eq_refl).
Defined.

(** The two local errors, traced back to their causes. *)
Lemma local_error_scenarios :
  (statusCode (good None) = StatusCodes.Good /\
   (outputArguments (good None) = None \/
    outputArguments (good None) = Some []) /\
   TypeError = TypeError) /\
  ((exists v others,
       outputArguments (denied (Some [boolean true])) = Some (v :: others)) /\
   Error "Invalid  output arguments" = Error "Invalid  output arguments").
Proof.
  split.
  - apply (proj1 (proj2 (local_errors_have_one_cause_each
                    (answering (good None))
                    (after getRejectedList_methodToCall)
                    (after getRejectedList_methodToCall)
                    (good None) TypeError))); reflexivity.
  - apply (proj2 (proj2 (local_errors_have_one_cause_each
                    (answering (denied (Some [boolean true])))
                    (after applyChanges_methodToCall)
                    (after applyChanges_methodToCall)
                    (denied (Some [boolean true]))
                    (Error "Invalid  output arguments")))); reflexivity.
Defined.

(** The default group, resolved while a reply is still waiting in the
    script. *)
Lemma getCertificateGroupId_default_scenario :
  "DefaultApplicationGroup" = "DefaultApplicationGroup" /\
  defaultApplicationGroup = defaultApplicationGroup.
Proof.
  apply (proj2 (proj2 (getCertificateGroupId_is_local
                  (answering (good None)) "DefaultApplicationGroup"
                  (fun _ => Throw TypeError)))
           defaultApplicationGroup).
  reflexivity.
Defined.

(** A flag left out and a flag [false] build the same request. *)
Lemma createSigningRequest_flag_left_out :
  createSigningRequest_methodToCall defaultApplicationGroup sample_type
    sample_subject None None =
  createSigningRequest_methodToCall defaultApplicationGroup sample_type
    sample_subject (Some false) None.
Proof.
  apply (proj2 (createSigningRequest_request_determines_parameters
                  defaultApplicationGroup sample_type sample_subject None
                  None
                  defaultApplicationGroup sample_type sample_subject
                  (Some false) None)).
  repeat split.
Defined.

(** With the empty string as format, two different keys build the same
    request. *)
Lemma updateCertificate_keys_without_format :
  updateCertificate_methodToCall defaultApplicationGroup sample_type
    sample_der [] (Some "") (Some sample_key) =
  updateCertificate_methodToCall defaultApplicationGroup sample_type
    sample_der [] None (Some sample_der).
Proof.
  apply (proj2 (updateCertificate_request_determines_parameters
                  defaultApplicationGroup sample_type sample_der []
                  (Some "") (Some sample_key)
                  defaultApplicationGroup sample_type sample_der []
                  None (Some sample_der))).
  repeat split; discriminate.
Defined.


(** ** A status of code 0 that is not [StatusCodes.Good] *)

Section CopiesOfGood.
Context {S : Type} `{IBasicSession S}.

(** X13.  The success test is [===] against the shared [StatusCodes.Good]
    object.  When the session returns a status object of its own whose code
    is 0, createSigningRequest, getRejectedList and updateCertificate take
    the failure branch: each resolves with a record that holds that status
    object and no typed property, whatever outputs came with it. *)
Theorem good_by_code_only_is_treated_as_failure
    (s s' : S) (outcome : CallMethodResult) (id : N) :
  statusCode outcome = mkStatusCode 0 (Some id) ->
  (forall certificateGroupId certificateTypeId subjectName
          regeneratePrivateKey nonce,
      call s (createSigningRequest_methodToCall certificateGroupId
                certificateTypeId subjectName regeneratePrivateKey nonce) =
        (Normal outcome, s') ->
      run (createSigningRequest certificateGroupId certificateTypeId
             subjectName regeneratePrivateKey nonce) s =
        (Normal {| csr_statusCode := mkStatusCode 0 (Some id);
                   certificateSigningRequest := None |}, s')) /\
  (call s getRejectedList_methodToCall = (Normal outcome, s') ->
   run getRejectedList s =
     (Normal {| grl_statusCode := mkStatusCode 0 (Some id);
                certificates := None |}, s')) /\
  (forall certificateGroupId certificateTypeId certificate
          issuerCertificates privateKeyFormat privateKey,
      call s (updateCertificate_methodToCall certificateGroupId
                certificateTypeId certificate issuerCertificates
                privateKeyFormat privateKey) = (Normal outcome, s') ->
      run (updateCertificate certificateGroupId certificateTypeId
             certificate issuerCertificates privateKeyFormat privateKey) s =
        (Normal {| uc_statusCode := mkStatusCode 0 (Some id);
                   applyChangeRequired := None |}, s')).
Proof.
  intros Hstatus. repeat split; intros;
    unfold createSigningRequest, getRejectedList, updateCertificate;
    match goal with Hc : call _ _ = _ |- _ => settle Hc end;
    rewrite Hstatus; reflexivity.
Qed.
End CopiesOfGood.

(** A copy of the good status arrives with the signing request
    [0xAA 0xBB]: the request is not handed on. *)
Lemma createSigningRequest_copy_of_good :
  run (createSigningRequest defaultApplicationGroup sample_type
         sample_subject None None)
      (answering {| statusCode := mkStatusCode 0 (Some 1%N);
                    outputArguments := Some [scalar_bytes [xaa; xbb]] |}) =
    (Normal {| csr_statusCode := mkStatusCode 0 (Some 1%N);
               certificateSigningRequest := None |},
     after (createSigningRequest_methodToCall defaultApplicationGroup
              sample_type sample_subject None None)).
Proof.
  apply (proj1 (good_by_code_only_is_treated_as_failure
                  (answering {| statusCode := mkStatusCode 0 (Some 1%N);
                                outputArguments :=
                                  Some [scalar_bytes [xaa; xbb]] |})
                  (after (createSigningRequest_methodToCall
                            defaultApplicationGroup sample_type
                            sample_subject None None))
                  {| statusCode := mkStatusCode 0 (Some 1%N);
                     outputArguments := Some [scalar_bytes [xaa; xbb]] |}
                  1%N eq_refl)).
  reflexivity.
Defined.
